(** * The Sentinel-2 ingest notebook, embedded and verified

    This development embeds [notebook-demos/reading-in-sentinel-data.ipynb]
    cell by cell: the notebook is a straight-line Python script that
    downloads three JPEG 2000 bands with [curl], decodes them with
    rasterio, stacks them with numpy, and hands one (ProjectedExtent, Tile)
    pair to Spark and GeoPySpark.

    The script is embedded as a program in a small state-and-exception
    monad.  Every call that leaves the notebook (a shell command, a library
    function, a method or attribute of a library object) is logged in a
    trace together with the exception it raised, if any.  The behaviour of
    the libraries is a parameter ([Libs]); the network and the disk are a
    parameter of each run ([World]).

    A run executes the code cells from top to bottom on a fresh kernel and
    stops at the first exception.  Three things are taken from the
    libraries' behaviour rather than from the notebook: a library entry
    point is a function of its arguments ([rasterio.open] of the path and
    of the files on disk); entering a [with] block returns the dataset
    itself and leaving it closes the dataset, neither raises, and the
    block's exception is let through; and showing the value of a cell's
    last expression raises nothing. *)

From Stdlib Require Import ZArith String Ascii List Lia FunctionalExtensionality.
From stdpp Require Import base list sorting strings gmap.

Open Scope Z_scope.

(** ** Python values that the notebook handles itself *)

(** The libraries the import cell brings in:
    [import rasterio], [import geopyspark as gps], [import numpy as np],
    [from pyspark import SparkContext]. *)
Inductive Library := Rasterio | GeoPySpark | Numpy | PySpark.

#[global] Instance Library_eq_dec : EqDecision Library.
Proof. solve_decision. Defined.

(** Exceptions, by class; the name, the key or the attribute is kept
    where it is the exception's argument, the wording of messages is not
    modelled.  The first six are raised by the interpreter's built-ins
    ([f] unbound, [arrs[0]], [d['init']], [v[5:]], [int(s)], [.to_dict]
    on [None]); a library may raise any of them too, or one of its own
    classes. *)
Inductive exn :=
| NameError (name : string)
| IndexError
| KeyError (key : string)
| TypeError
| ValueError
| AttributeError (attr : string)
| LibraryError (lib : Library) (msg : string).

Inductive result (A : Type) :=
| Ok (a : A)
| Raise (e : exn).
Arguments Ok {A} a.
Arguments Raise {A} e.

Definition raised {A} (r : result A) : option exn :=
  match r with Ok _ => None | Raise e => Some e end.

(** A Python float is carried around, never computed with: it is
    represented by its 64-bit IEEE pattern. *)
Definition float64 : Type := Z.

(** *** Strings: [s[5:]] and [int(s)] *)

(** [s[n:]] on a [str]: the string without its first [n] characters,
    empty when [n] is past the end. *)
Fixpoint slice_from (n : nat) (s : string) : string :=
  match n, s with
  | O, _ => s
  | S n', String _ s' => slice_from n' s'
  | S _, EmptyString => EmptyString
  end.

(** The blanks [int] skips around an ASCII literal: tab, line feed,
    vertical tab, form feed, carriage return and space. *)
Definition is_space (c : ascii) : bool :=
  let n := nat_of_ascii c in
  ((9 <=? n) && (n <=? 13) || (n =? 32))%nat.

Definition digit_of (c : ascii) : option Z :=
  let n := nat_of_ascii c in
  if ((48 <=? n) && (n <=? 57))%nat then Some (Z.of_nat n - 48) else None.

Fixpoint lstrip (s : string) : string :=
  match s with
  | String c s' => if is_space c then lstrip s' else s
  | EmptyString => EmptyString
  end.

(** [rstrip] keeps a character when it is not a space or when something
    that is kept follows it. *)
Fixpoint rstrip (s : string) : string :=
  match s with
  | String c s' =>
      match rstrip s' with
      | EmptyString => if is_space c then EmptyString else String c EmptyString
      | t => String c t
      end
  | EmptyString => EmptyString
  end.

(** The digits of a literal, most significant first, read with an
    accumulator; [None] on the first character that is not a digit. *)
Fixpoint digits_value (acc : Z) (s : string) : option Z :=
  match s with
  | EmptyString => Some acc
  | String c s' =>
      match digit_of c with
      | Some d => digits_value (10 * acc + d) s'
      | None => None
      end
  end.

Definition unsigned_literal (s : string) : option Z :=
  match s with
  | EmptyString => None
  | _ => digits_value 0 s
  end.

(** [int(s)] in base 10 (Python 3.5, the notebook's kernel; ASCII text):
    surrounding whitespace is dropped, one sign is allowed, then at least
    one digit and nothing else; anything else is a [ValueError]. *)
Definition py_int (s : string) : result Z :=
  let t := rstrip (lstrip s) in
  let r :=
    match t with
    | String "+" u => unsigned_literal u
    | String "-" u => Z.opp <$> unsigned_literal u
    | _ => unsigned_literal t
    end in
  match r with
  | Some z => Ok z
  | None => Raise ValueError
  end.

(** The values of rasterio's CRS dictionary: strings such as
    ['init': 'epsg:32632'], flags such as ['no_defs': True], numbers. *)
Inductive crs_value :=
| CrsStr (s : string)
| CrsBool (b : bool)
| CrsNum (x : float64).

(** [d[k]] on a dict. *)
Definition getitem (d : gmap string crs_value) (k : string) : result crs_value :=
  match d !! k with
  | Some v => Ok v
  | None => Raise (KeyError k)
  end.

(** [v[5:]]: only a string can be sliced. *)
Definition slice5 (v : crs_value) : result string :=
  match v with
  | CrsStr s => Ok (slice_from 5 s)
  | CrsBool _ => Raise TypeError
  | CrsNum _ => Raise TypeError
  end.

(** ** numpy: integer arrays and [np.array(list, dtype=...)] *)

(** The sample types GDAL's JPEG 2000 drivers decode to. *)
Inductive DType := uint8 | uint16 | int16 | uint32 | int32.

#[global] Instance DType_eq_dec : EqDecision DType.
Proof. solve_decision. Defined.

Definition bits (dt : DType) : Z :=
  match dt with
  | uint8 => 8
  | uint16 | int16 => 16
  | uint32 | int32 => 32
  end.

Definition signed (dt : DType) : bool :=
  match dt with
  | int16 | int32 => true
  | uint8 | uint16 | uint32 => false
  end.

(** Conversion of one integer sample to [dt], as numpy converts array
    elements: the low [bits dt] bits are kept, read unsigned or in two's
    complement. *)
Definition astype (dt : DType) (v : Z) : Z :=
  let m := 2 ^ bits dt in
  if signed dt then (v + m / 2) mod m - m / 2 else v mod m.

Definition in_range (dt : DType) (v : Z) : Prop :=
  if signed dt then - 2 ^ (bits dt - 1) <= v < 2 ^ (bits dt - 1)
  else 0 <= v < 2 ^ bits dt.

(** A two-dimensional array, what [f.read(1)] returns: element type,
    shape (rows, columns) and the samples in row-major order. *)
Record ndarray := {
  dtype : DType;
  shape : list nat;
  cells : list Z
}.

(** The stacked array: one more leading dimension, one plane per band. *)
Record ndarray3 := {
  dtype3 : DType;
  shape3 : list nat;
  planes : list (list Z)
}.

(** [data[i]] *)
Definition plane (a : ndarray3) (i : nat) : option ndarray :=
  cs ← planes a !! i;
  Some {| dtype := dtype3 a; shape := tail (shape3 a); cells := cs |}.

Definition same_shape (a b : ndarray) : bool :=
  bool_decide (shape a = shape b).

(** [np.array(arrs, dtype=dt)] on a list of arrays: arrays of one shape
    are stacked along a new first axis in list order, each sample
    converted to [dt]; arrays of different shapes cannot fill a numeric
    array. *)
Definition np_array (arrs : list ndarray) (dt : DType) : result ndarray3 :=
  match arrs with
  | [] => Ok {| dtype3 := dt; shape3 := [0%nat]; planes := [] |}
  | a :: rest =>
      if forallb (same_shape a) rest
      then Ok {| dtype3 := dt;
                 shape3 := length arrs :: shape a;
                 planes := (fun b => astype dt <$> cells b) <$> arrs |}
      else Raise ValueError
  end.

(** [arrs[i]] on a list. *)
Definition list_getitem {A} (l : list A) (i : nat) : result A :=
  match l !! i with
  | Some x => Ok x
  | None => Raise IndexError
  end.

(** ** rasterio and GeoPySpark data the notebook passes along *)

(** [f.bounds]: rasterio's bounding box, a four-component named tuple. *)
Record BoundingBox := {
  left : float64;
  bottom : float64;
  right : float64;
  top : float64
}.

(** Modelled from the spec: GeoPySpark's [Extent] class is not under
    src/; the extent is a value of four coordinate fields, filled
    positionally from the four components of [f.bounds]. *)
Record Extent := {
  xmin : float64;
  ymin : float64;
  xmax : float64;
  ymax : float64
}.

(** Modelled from the spec: GeoPySpark's [ProjectedExtent] class is not
    under src/; it pairs an extent with a coordinate reference system,
    given here by keyword as [epsg]; the other way of naming the system
    ([proj4]) is left unset by the notebook. *)
Record ProjectedExtent := {
  extent : Extent;
  epsg : option Z;
  proj4 : option string
}.

(** Modelled from the spec: [gps.LayerType], not under src/; the
    notebook's comment names the time component it leaves out. *)
Inductive LayerType := SPATIAL | SPACETIME.

(** ** The libraries and the world *)

Definition FileSystem : Type := string → option (list Byte.byte).

(** What the libraries compute is a parameter: every entry point may
    raise, and so may importing a library.  [rasterio_open] sees the path
    and the files on disk: the file at the path and whatever the decoder
    reads beside it (a sidecar file such as <path>.aux.xml).  [f.crs] is
    a CRS object or [None]. *)
Record Libs := {
  Dataset : Type;
  SparkConf : Type;
  SparkContext : Type;
  Tile : Type;
  RDD : Type;
  RasterLayer : Type;
  CRS : Type;
  import_module : Library → result unit;
  rasterio_open : string → FileSystem → result Dataset;
  Dataset_read : Dataset → Z → result ndarray;
  Dataset_bounds : Dataset → result BoundingBox;
  Dataset_crs : Dataset → result (option CRS);
  CRS_to_dict : CRS → result (gmap string crs_value);
  Dataset_nodata : Dataset → result (option float64);
  geopyspark_conf : string → string → result SparkConf;
  SparkContext_new : SparkConf → result SparkContext;
  Tile_from_numpy_array : ndarray3 → option float64 → result Tile;
  SparkContext_parallelize :
    SparkContext → list (ProjectedExtent * Tile) → result RDD;
  RasterLayer_from_numpy_rdd : LayerType → RDD → result RasterLayer
}.

(** The value of [f.crs.to_dict()]: the property is read, then the
    method is called on what it returned; [None] has no such method. *)
Definition Dataset_crs_to_dict (L : Libs) (ds : Dataset L)
    : result (gmap string crs_value) :=
  match Dataset_crs L ds with
  | Ok (Some crs) => CRS_to_dict L crs
  | Ok None => Raise (AttributeError "to_dict")
  | Raise e => Raise e
  end.

(** What one [curl -o path url] does: its exit status, the bytes it
    leaves at [path] (if it writes any) and the text it prints. *)
Record Transfer := {
  exit_status : Z;
  body : option (list Byte.byte);
  message : string
}.

Definition write_file (fs : FileSystem) (path : string)
    (content : list Byte.byte) : FileSystem :=
  fun p => if String.eqb p path then Some content else fs p.

(** A run starts from the files already on disk and meets one network. *)
Record World := {
  net : string → Transfer;
  disk : FileSystem
}.

Section Notebook.

Variable L : Libs.

(** The object a [with rasterio.open(...) as f] binds: it stays bound,
    closed, after the block. *)
Record Handle := {
  h_path : string;
  h_dataset : Dataset L;
  h_closed : bool
}.

Definition closed (h : Handle) : Handle :=
  {| h_path := h_path h; h_dataset := h_dataset h; h_closed := true |}.

(** Every place where the notebook leaves its own code. *)
Inductive Call :=
| CallCurl (path url : string)
| CallImport (lib : Library)
| CallGeopysparkConf (master appName : string)
| CallSparkContext (conf : SparkConf L)
| CallOpen (path : string)
| CallEnter (f : Handle)
| CallRead (f : Handle) (bidx : Z)
| CallExit (f : Handle)
| CallNpArray (arrs : list ndarray) (dt : DType)
| CallBounds (f : Handle)
| CallCrs (f : Handle)
| CallToDict (crs : CRS L)
| CallNodata (f : Handle)
| CallExtent (x0 y0 x1 y1 : float64)
| CallProjectedExtent (e : Extent) (code : Z)
| CallTileFromNumpyArray (numpy_array : ndarray3) (no_data_value : option float64)
| CallParallelize (pysc : SparkContext L) (c : list (ProjectedExtent * Tile L))
| CallFromNumpyRdd (layer_type : LayerType) (numpy_rdd : RDD L).

(** The library whose interface a call uses; the shell command and the
    import statements use none. *)
Definition library_of (c : Call) : option Library :=
  match c with
  | CallCurl _ _ | CallImport _ => None
  | CallOpen _ | CallEnter _ | CallRead _ _ | CallExit _
  | CallBounds _ | CallCrs _ | CallToDict _ | CallNodata _ => Some Rasterio
  | CallNpArray _ _ => Some Numpy
  | CallGeopysparkConf _ _ | CallExtent _ _ _ _ | CallProjectedExtent _ _
  | CallTileFromNumpyArray _ _ | CallFromNumpyRdd _ _ => Some GeoPySpark
  | CallSparkContext _ | CallParallelize _ _ => Some PySpark
  end.

(** The six steps of the pipeline. *)
Inductive Step := Download | Decode | Stack | Wrap | ConstructRDD | ConstructLayer.

Definition step_index (s : Step) : nat :=
  match s with
  | Download => 0
  | Decode => 1
  | Stack => 2
  | Wrap => 3
  | ConstructRDD => 4
  | ConstructLayer => 5
  end.

Definition step_le (s t : Step) : Prop := (step_index s <= step_index t)%nat.

(** The step a call belongs to.  Importing the libraries and starting
    the Spark session are set-up and belong to none of the six. *)
Definition step_of (c : Call) : option Step :=
  match c with
  | CallCurl _ _ => Some Download
  | CallImport _ | CallGeopysparkConf _ _ | CallSparkContext _ => None
  | CallOpen _ | CallEnter _ | CallRead _ _ | CallExit _ => Some Decode
  | CallNpArray _ _ => Some Stack
  | CallBounds _ | CallCrs _ | CallToDict _ | CallNodata _
  | CallExtent _ _ _ _ | CallProjectedExtent _ _
  | CallTileFromNumpyArray _ _ => Some Wrap
  | CallParallelize _ _ => Some ConstructRDD
  | CallFromNumpyRdd _ _ => Some ConstructLayer
  end.

Record Event := {
  ev_call : Call;
  ev_raised : option exn
}.

(** What a cell prints: the text of a shell command, or the value of
    the cell's last expression. *)
Inductive Displayed :=
| ShellText (s : string)
| ShowArray (a : ndarray3)
| ShowProjectedExtent (pe : ProjectedExtent)
| ShowDict (d : gmap string crs_value)
| ShowInt (n : Z)
| ShowTile (t : Tile L)
| ShowRDD (r : RDD L)
| ShowLayer (l : RasterLayer L).

Record State := {
  fs : FileSystem;
  trace : list Event;
  shown : list Displayed
}.

(** *** The monad: state, and an exception ends the run *)

Definition M (A : Type) : Type := State → result A * State.

Definition ret {A} (a : A) : M A := fun st => (Ok a, st).

Definition bind {A B} (m : M A) (k : A → M B) : M B :=
  fun st =>
    match m st with
    | (Ok a, st') => k a st'
    | (Raise e, st') => (Raise e, st')
    end.

#[global] Instance M_ret : MRet M := @ret.
#[global] Instance M_bind : MBind M := fun A B k m => bind m k.

(** A built-in operation: nothing is logged. *)
Definition builtin {A} (r : result A) : M A := fun st => (r, st).

Definition log (c : Call) (r : option exn) (st : State) : State :=
  {| fs := fs st;
     trace := trace st ++ [{| ev_call := c; ev_raised := r |}];
     shown := shown st |}.

(** A call out of the notebook: logged with its outcome. *)
Definition call {A} (c : Call) (r : result A) : M A :=
  fun st => (r, log c (raised r) st).

Definition display (d : Displayed) : M unit :=
  fun st => (Ok tt, {| fs := fs st; trace := trace st; shown := shown st ++ [d] |}).

(** [!curl -o path url]: IPython runs the command and prints what it
    prints; the exit status raises nothing. *)
Definition sh_curl (w : World) (path url : string) : M unit :=
  fun st =>
    let t := net w url in
    let fs' := match body t with
               | Some b => write_file (fs st) path b
               | None => fs st
               end in
    (Ok tt,
     {| fs := fs';
        trace := trace st ++ [{| ev_call := CallCurl path url; ev_raised := None |}];
        shown := shown st ++ [ShellText (message t)] |}).

(** [with rasterio.open(path) as f: body]: the dataset's [__enter__]
    returns the dataset itself, which [f] names; its [__exit__] closes it
    and lets an exception of the body through. *)
Definition with_open {A} (path : string) (body : Handle → M A) : M (A * Handle) :=
  fun st =>
    match call (CallOpen path) (rasterio_open L path (fs st)) st with
    | (Raise e, st1) => (Raise e, st1)
    | (Ok ds, st1) =>
        let f := {| h_path := path; h_dataset := ds; h_closed := false |} in
        let '(r, st2) := body f (log (CallEnter f) None st1) in
        let st3 := log (CallExit f) None st2 in
        match r with
        | Ok a => (Ok (a, closed f), st3)
        | Raise e => (Raise e, st3)
        end
    end.

(** [for x in xs: body], the variables the body assigns threaded as [s]. *)
Fixpoint for_each {A S} (xs : list A) (body : S → A → M S) (s : S) : M S :=
  match xs with
  | [] => ret s
  | x :: xs' => s' ← body s x; for_each xs' body s'
  end.

(** Reading the variable [f], which only the loop binds. *)
Definition name_f (f : option Handle) : M Handle :=
  builtin (match f with Some h => Ok h | None => Raise (NameError "f") end).

(** *** The cells, in notebook order *)

Definition jp2s : list string :=
  ["/tmp/B01.jp2"; "/tmp/B09.jp2"; "/tmp/B10.jp2"]%string.

Definition url_B01 : string :=
  "http://sentinel-s2-l1c.s3.amazonaws.com/tiles/32/T/NM/2017/1/4/0/B01.jp2".
Definition url_B09 : string :=
  "http://sentinel-s2-l1c.s3.amazonaws.com/tiles/32/T/NM/2017/1/4/0/B09.jp2".
Definition url_B10 : string :=
  "http://sentinel-s2-l1c.s3.amazonaws.com/tiles/32/T/NM/2017/1/4/0/B10.jp2".

Definition cell_download (w : World) : M unit :=
  sh_curl w "/tmp/B01.jp2" url_B01;;
  sh_curl w "/tmp/B09.jp2" url_B09;;
  sh_curl w "/tmp/B10.jp2" url_B10.

Definition cell_import : M unit :=
  call (CallImport Rasterio) (import_module L Rasterio);;
  call (CallImport GeoPySpark) (import_module L GeoPySpark);;
  call (CallImport Numpy) (import_module L Numpy);;
  call (CallImport PySpark) (import_module L PySpark).

Definition cell_context : M (SparkConf L * SparkContext L) :=
  conf ← call (CallGeopysparkConf "local[*]" "sentinel-ingest-example")
               (geopyspark_conf L "local[*]" "sentinel-ingest-example");
  pysc ← call (CallSparkContext conf) (SparkContext_new L conf);
  ret (conf, pysc).

(** The loop body: [with rasterio.open(jp2) as f: arrs.append(f.read(1))]. *)
Definition read_band (vars : list ndarray * option Handle) (jp2 : string)
    : M (list ndarray * option Handle) :=
  '(a, f) ← with_open jp2 (fun f =>
       call (CallRead f 1) (Dataset_read L (h_dataset f) 1));
  ret (fst vars ++ [a], Some f).

Definition cell_read : M (list ndarray * option Handle * ndarray3) :=
  '(arrs, f) ← for_each jp2s read_band ([], None);
  a0 ← builtin (list_getitem arrs 0);
  data ← call (CallNpArray arrs (dtype a0)) (np_array arrs (dtype a0));
  display (ShowArray data);;
  ret (arrs, f, data).

(** [f.crs.to_dict()] *)
Definition crs_to_dict (f : Handle) : M (gmap string crs_value) :=
  c ← call (CallCrs f) (Dataset_crs L (h_dataset f));
  crs ← builtin (match c with
                 | Some crs => Ok crs
                 | None => Raise (AttributeError "to_dict")
                 end);
  call (CallToDict crs) (CRS_to_dict L crs).

(** [int(f.crs.to_dict()['init'][5:])] *)
Definition epsg_of (f : Handle) : M Z :=
  d ← crs_to_dict f;
  v ← builtin (getitem d "init");
  s ← builtin (slice5 v);
  builtin (py_int s).

Definition cell_projected_extent (f : option Handle) : M (Extent * ProjectedExtent) :=
  f ← name_f f;
  b ← call (CallBounds f) (Dataset_bounds L (h_dataset f));
  extent ← call (CallExtent (left b) (bottom b) (right b) (top b))
                 (Ok {| xmin := left b; ymin := bottom b;
                        xmax := right b; ymax := top b |});
  code ← epsg_of f;
  projected_extent ←
    call (CallProjectedExtent extent code)
         (Ok {| extent := extent; epsg := Some code; proj4 := None |});
  display (ShowProjectedExtent projected_extent);;
  ret (extent, projected_extent).

Definition cell_show_crs (f : option Handle) : M unit :=
  f ← name_f f;
  d ← crs_to_dict f;
  display (ShowDict d).

Definition cell_show_epsg (f : option Handle) : M unit :=
  f ← name_f f;
  code ← epsg_of f;
  display (ShowInt code).

Definition cell_tile (data : ndarray3) (f : option Handle) : M (Tile L) :=
  f ← name_f f;
  nd ← call (CallNodata f) (Dataset_nodata L (h_dataset f));
  tile ← call (CallTileFromNumpyArray data nd) (Tile_from_numpy_array L data nd);
  display (ShowTile tile);;
  ret tile.

Definition cell_rdd (pysc : SparkContext L) (projected_extent : ProjectedExtent)
    (tile : Tile L) : M (RDD L) :=
  rdd ← call (CallParallelize pysc [(projected_extent, tile)])
              (SparkContext_parallelize L pysc [(projected_extent, tile)]);
  display (ShowRDD rdd);;
  ret rdd.

Definition cell_layer (rdd : RDD L) : M (RasterLayer L) :=
  raster_layer ← call (CallFromNumpyRdd SPATIAL rdd)
                       (RasterLayer_from_numpy_rdd L SPATIAL rdd);
  display (ShowLayer raster_layer);;
  ret raster_layer.

(** The variables left when the last cell has run. *)
Record Namespace := {
  v_conf : SparkConf L;
  v_pysc : SparkContext L;
  v_arrs : list ndarray;
  v_f : option Handle;
  v_data : ndarray3;
  v_extent : Extent;
  v_projected_extent : ProjectedExtent;
  v_tile : Tile L;
  v_rdd : RDD L;
  v_raster_layer : RasterLayer L
}.

(** The cells after the download, which see the world only through the
    files on disk. *)
Definition ingest : M Namespace :=
  cell_import;;
  '(conf, pysc) ← cell_context;
  '(arrs, f, data) ← cell_read;
  '(extent, projected_extent) ← cell_projected_extent f;
  cell_show_crs f;;
  cell_show_epsg f;;
  tile ← cell_tile data f;
  rdd ← cell_rdd pysc projected_extent tile;
  raster_layer ← cell_layer rdd;
  ret {| v_conf := conf; v_pysc := pysc; v_arrs := arrs; v_f := f;
         v_data := data; v_extent := extent;
         v_projected_extent := projected_extent; v_tile := tile;
         v_rdd := rdd; v_raster_layer := raster_layer |}.

Definition notebook (w : World) : M Namespace :=
  cell_download w ;; ingest.

Definition boot (fs0 : FileSystem) : State :=
  {| fs := fs0; trace := []; shown := [] |}.

(** Running all cells from top to bottom on a fresh kernel. *)
Definition run (w : World) : result Namespace * State :=
  notebook w (boot (disk w)).

Definition calls (st : State) : list Call := ev_call <$> trace st.
Definition steps (st : State) : list Step := omap step_of (calls st).

End Notebook.

Arguments Build_Handle {L} _ _ _.
Arguments h_path {L} _.
Arguments h_dataset {L} _.
Arguments h_closed {L} _.
Arguments Build_Event {L} _ _.
Arguments ev_call {L} _.
Arguments ev_raised {L} _.
Arguments fs {L} _.
Arguments trace {L} _.
Arguments shown {L} _.
Arguments calls {L} _.
Arguments steps {L} _.
Arguments step_of {L} _.
Arguments library_of {L} _.

(** ** A small instance to run the notebook on *)

Module Demo.

(** A stand-in for a decoded file: one band and the metadata. *)
Record Decoded := {
  d_band : ndarray;
  d_bounds : BoundingBox;
  d_crs : gmap string crs_value;
  d_nodata : option float64
}.

Definition byte_value (b : Byte.byte) : Z := Z.of_N (Byte.to_N b).

(** A three-byte stand-in for a raster file: a sample-type tag and one
    16-bit sample, decoded to a 1 x 1 band in UTM zone 32N.  The nodata
    value is the tag, unless a one-byte sidecar file <path>.aux.xml gives
    another. *)
Definition decode (path : string) (files : FileSystem) : result Decoded :=
  match files path with
  | None => Raise (LibraryError Rasterio (path ++ ": No such file or directory"))
  | Some [t; hi; lo] =>
      Ok {| d_band := {| dtype := if Byte.eqb t Byte.x00 then uint8 else uint16;
                         shape := [1%nat; 1%nat];
                         cells := [256 * byte_value hi + byte_value lo] |};
            d_bounds := {| left := 499980; bottom := 4590240;
                           right := 609780; top := 4700040 |};
            d_crs := {[ "init"%string := CrsStr "epsg:32632" ]};
            d_nodata := match files (path ++ ".aux.xml")%string with
                        | Some [n] => Some (byte_value n)
                        | _ => Some (byte_value t)
                        end |}
  | Some _ => Raise (LibraryError Rasterio "not recognized as a supported file format")
  end.

Definition libs : Libs := {|
  Dataset := Decoded;
  SparkConf := string * string;
  SparkContext := string * string;
  Tile := ndarray3 * option float64;
  RDD := list (ProjectedExtent * (ndarray3 * option float64));
  RasterLayer := LayerType * list (ProjectedExtent * (ndarray3 * option float64));
  CRS := gmap string crs_value;
  import_module := fun _ => Ok tt;
  rasterio_open := decode;
  Dataset_read := fun ds bidx =>
    if bool_decide (bidx = 1) then Ok (d_band ds)
    else Raise IndexError;
  Dataset_bounds := fun ds => Ok (d_bounds ds);
  Dataset_crs := fun ds => Ok (Some (d_crs ds));
  CRS_to_dict := fun crs => Ok crs;
  Dataset_nodata := fun ds => Ok (d_nodata ds);
  geopyspark_conf := fun master appName => Ok (master, appName);
  SparkContext_new := fun conf => Ok conf;
  Tile_from_numpy_array := fun a nd => Ok (a, nd);
  SparkContext_parallelize := fun _ c => Ok c;
  RasterLayer_from_numpy_rdd := fun lt rdd => Ok (lt, rdd)
|}.

(** Three 16-bit bands arrive. *)
Definition world : World := {|
  net := fun url =>
    if String.eqb url "http://sentinel-s2-l1c.s3.amazonaws.com/tiles/32/T/NM/2017/1/4/0/B01.jp2"
    then {| exit_status := 0; body := Some [Byte.x01; Byte.x04; Byte.xd2]; message := "" |}
    else if String.eqb url "http://sentinel-s2-l1c.s3.amazonaws.com/tiles/32/T/NM/2017/1/4/0/B09.jp2"
    then {| exit_status := 0; body := Some [Byte.x01; Byte.x01; Byte.x2c]; message := "" |}
    else {| exit_status := 0; body := Some [Byte.x01; Byte.x00; Byte.x07]; message := "" |};
  disk := fun _ => None
|}.

(** The first band arrives with 8-bit samples, the second with the
    16-bit sample 300. *)
Definition world_mixed : World := {|
  net := fun url =>
    if String.eqb url "http://sentinel-s2-l1c.s3.amazonaws.com/tiles/32/T/NM/2017/1/4/0/B01.jp2"
    then {| exit_status := 0; body := Some [Byte.x00; Byte.x00; Byte.x05]; message := "" |}
    else if String.eqb url "http://sentinel-s2-l1c.s3.amazonaws.com/tiles/32/T/NM/2017/1/4/0/B09.jp2"
    then {| exit_status := 0; body := Some [Byte.x01; Byte.x01; Byte.x2c]; message := "" |}
    else {| exit_status := 0; body := Some [Byte.x01; Byte.x00; Byte.x07]; message := "" |};
  disk := fun _ => None
|}.



(** No host answers and the disk is empty. *)
Definition world_down : World := {|
  net := fun _ =>
    {| exit_status := 6; body := None;
       message := "curl: (6) Could not resolve host: sentinel-s2-l1c.s3.amazonaws.com" |};
  disk := fun _ => None
|}.

(** The dataset of the third file of [world], as [f] is left after the
    loop. *)
Definition f_B10 : Handle libs :=
  @Build_Handle libs "/tmp/B10.jp2"
    {| d_band := {| dtype := uint16; shape := [1%nat; 1%nat]; cells := [7] |};
       d_bounds := {| left := 499980; bottom := 4590240;
                      right := 609780; top := 4700040 |};
       d_crs := {[ "init"%string := CrsStr "epsg:32632" ]};
       d_nodata := Some 1 |}
    true.

(** What the read cell leaves in [arrs] and [data] on [world] and on
    [world_mixed]. *)
Definition arrs_16 : list ndarray :=
  [ {| dtype := uint16; shape := [1%nat; 1%nat]; cells := [1234] |};
    {| dtype := uint16; shape := [1%nat; 1%nat]; cells := [300] |};
    {| dtype := uint16; shape := [1%nat; 1%nat]; cells := [7] |} ].

Definition data_16 : ndarray3 :=
  {| dtype3 := uint16; shape3 := [3%nat; 1%nat; 1%nat];
     planes := [[1234]; [300]; [7]] |}.

Definition arrs_mixed : list ndarray :=
  [ {| dtype := uint8; shape := [1%nat; 1%nat]; cells := [5] |};
    {| dtype := uint16; shape := [1%nat; 1%nat]; cells := [300] |};
    {| dtype := uint16; shape := [1%nat; 1%nat]; cells := [7] |} ].

Definition data_mixed : ndarray3 :=
  {| dtype3 := uint8; shape3 := [3%nat; 1%nat; 1%nat];
     planes := [[5]; [44]; [7]] |}.

End Demo.

(** ** Vocabulary of the properties *)

(** The steps of a run in which every call returns: three downloads,
    an open, an enter, a read and an exit per file, the stack, the
    metadata reads and the constructors of the key and the value, the
    collection, the layer. *)
Definition pipeline : list Step :=
  [Download; Download; Download;
   Decode; Decode; Decode; Decode;
   Decode; Decode; Decode; Decode;
   Decode; Decode; Decode; Decode;
   Stack;
   Wrap; Wrap; Wrap; Wrap; Wrap; Wrap; Wrap; Wrap; Wrap; Wrap; Wrap;
   ConstructRDD; ConstructLayer].

(** The Python name of what is called. *)
Definition call_name {L} (c : Call L) : string :=
  match c with
  | CallCurl _ _ _ => "!curl"
  | CallImport _ Rasterio => "import rasterio"
  | CallImport _ GeoPySpark => "import geopyspark"
  | CallImport _ Numpy => "import numpy"
  | CallImport _ PySpark => "from pyspark import SparkContext"
  | CallGeopysparkConf _ _ _ => "gps.geopyspark_conf"
  | CallSparkContext _ _ => "SparkContext"
  | CallOpen _ _ => "rasterio.open"
  | CallEnter _ _ => "f.__enter__"
  | CallRead _ _ _ => "f.read"
  | CallExit _ _ => "f.__exit__"
  | CallNpArray _ _ _ => "np.array"
  | CallBounds _ _ => "f.bounds"
  | CallCrs _ _ => "f.crs"
  | CallToDict _ _ => "crs.to_dict"
  | CallNodata _ _ => "f.nodata"
  | CallExtent _ _ _ _ _ => "gps.Extent"
  | CallProjectedExtent _ _ _ => "gps.ProjectedExtent"
  | CallTileFromNumpyArray _ _ _ => "gps.Tile.from_numpy_array"
  | CallParallelize _ _ _ => "pysc.parallelize"
  | CallFromNumpyRdd _ _ _ => "gps.RasterLayer.from_numpy_rdd"
  end.

(** The calls of a run in which every call returns, cell by cell. *)
Definition schedule : list string :=
  ["!curl"; "!curl"; "!curl";
   "import rasterio"; "import geopyspark"; "import numpy";
   "from pyspark import SparkContext";
   "gps.geopyspark_conf"; "SparkContext";
   "rasterio.open"; "f.__enter__"; "f.read"; "f.__exit__";
   "rasterio.open"; "f.__enter__"; "f.read"; "f.__exit__";
   "rasterio.open"; "f.__enter__"; "f.read"; "f.__exit__";
   "np.array";
   "f.bounds"; "gps.Extent"; "f.crs"; "crs.to_dict"; "gps.ProjectedExtent";
   "f.crs"; "crs.to_dict";
   "f.crs"; "crs.to_dict";
   "f.nodata"; "gps.Tile.from_numpy_array";
   "pysc.parallelize";
   "gps.RasterLayer.from_numpy_rdd"]%string.

#[global] Instance Step_eq_dec : EqDecision Step.
Proof. solve_decision. Defined.

(** How many calls of a run belong to a step. *)
Definition calls_in {L} (s : Step) (st : State L) : nat :=
  length (filter (λ t, t = s) (steps st)).

(** The library an import statement names. *)
Definition imported {L} (c : Call L) : option Library :=
  match c with
  | CallImport _ l => Some l
  | _ => None
  end.

(** The libraries a run called, each once, in order of first use. *)
Definition libraries_called {L} (st : State L) : list Library :=
  reverse (remove_dups (reverse (omap library_of (calls st)))).

Definition url_of {L} (c : Call L) : option string :=
  match c with
  | CallCurl _ _ url => Some url
  | _ => None
  end.

(** The handle a metadata read goes to. *)
Definition metadata_read {L} (c : Call L) : option (Handle L) :=
  match c with
  | CallBounds _ f | CallCrs _ f | CallNodata _ f => Some f
  | _ => None
  end.

Definition parallelize_arg {L} (c : Call L)
    : option (list (ProjectedExtent * Tile L)) :=
  match c with
  | CallParallelize _ _ l => Some l
  | _ => None
  end.


Definition from_numpy_rdd_args {L} (c : Call L) : option (LayerType * RDD L) :=
  match c with
  | CallFromNumpyRdd _ lt rdd => Some (lt, rdd)
  | _ => None
  end.



(** *** URLs *)

Fixpoint until_slash (s : string) : string :=
  match s with
  | EmptyString => EmptyString
  | String c s' => if Ascii.eqb c "/" then EmptyString else String c (until_slash s')
  end.

(** A URL split at its first [://]. *)
Fixpoint url_split (s : string) : option (string * string) :=
  match s with
  | EmptyString => None
  | String c s' =>
      if String.prefix "://" s then Some (EmptyString, slice_from 3 s)
      else '(scheme, rest) ← url_split s'; Some (String c scheme, rest)
  end.

Definition url_scheme (s : string) : option string := fst <$> url_split s.
Definition url_host (s : string) : option string :=
  (until_slash ∘ snd) <$> url_split s.

(** *** Decimal numerals, as the specification reads them *)

Definition is_digit (c : ascii) : Prop :=
  (48 <= nat_of_ascii c <= 57)%nat.

Fixpoint all_digits (s : string) : Prop :=
  match s with
  | EmptyString => True
  | String c s' => is_digit c ∧ all_digits s'
  end.

(** The number a string of decimal digits denotes: each digit weighs
    ten to the number of digits after it. *)
Fixpoint decimal (s : string) : Z :=
  match s with
  | EmptyString => 0
  | String c s' =>
      (Z.of_nat (nat_of_ascii c) - 48) * 10 ^ Z.of_nat (String.length s') + decimal s'
  end.

(** The files as the download cell leaves them. *)
Definition downloaded (L : Libs) (w : World) : FileSystem :=
  fs (cell_download L w (boot L (disk w))).2.

(** The state the download cell leaves: it cannot raise. *)
Definition after_download (L : Libs) (w : World) : State L :=
  {| fs := downloaded L w;
     trace := [ {| ev_call := CallCurl L "/tmp/B01.jp2" url_B01; ev_raised := None |};
                {| ev_call := CallCurl L "/tmp/B09.jp2" url_B09; ev_raised := None |};
                {| ev_call := CallCurl L "/tmp/B10.jp2" url_B10; ev_raised := None |} ];
     shown := [ ShellText L (message (net w url_B01));
                ShellText L (message (net w url_B09));
                ShellText L (message (net w url_B10)) ] |}.

(** *** The specification's wording, where the code differs *)


(** The pipeline as the specification words it: every run executes
    the six steps. *)
Definition all_steps_execute {L} (st : State L) : Prop :=
  ∀ s : Step, s ∈ steps st.


(** The surface as the specification words it: a raster decoding
    library and a distributed geospatial processing library, and no
    other. *)
Definition two_library_surface {L} (st : State L) : Prop :=
  ∀ l, l ∈ libraries_called st ↔ l = Rasterio ∨ l = GeoPySpark.

(** The steps as the specification words them: each a single call. *)
Definition single_call_steps {L} (st : State L) : Prop :=
  ∀ s, calls_in s st = 1%nat.

(** ** Vocabulary of further properties *)

(** The path a call opens, and the band a call reads. *)
Definition opened {L} (c : Call L) : option string :=
  match c with
  | CallOpen _ p => Some p
  | _ => None
  end.

Definition band_read {L} (c : Call L) : option Z :=
  match c with
  | CallRead _ _ i => Some i
  | _ => None
  end.

Fixpoint without (p : string) (l : list string) : list string :=
  match l with
  | [] => []
  | q :: l' => if String.eqb q p then without p l' else q :: without p l'
  end.

(** The paths of the datasets open after one more event: an open that
    returned adds its path, an exit removes it. *)
Definition track {L} (open : list string) (ev : Event L) : list string :=
  match ev_call ev, ev_raised ev with
  | CallOpen _ p, None => p :: open
  | CallExit _ f, _ => without (h_path f) open
  | _, _ => open
  end.

Definition open_after {L} (tr : list (Event L)) : list string :=
  fold_left track tr [].

(** The largest number of datasets open at once. *)
Fixpoint peak_open {L} (open : list string) (tr : list (Event L)) : nat :=
  match tr with
  | [] => length open
  | ev :: tr' => Nat.max (length open) (peak_open (track open ev) tr')
  end.

(** Whether every [f.read] goes to a dataset that is open at that
    moment. *)
Fixpoint reads_while_open {L} (open : list string) (tr : list (Event L)) : bool :=
  match tr with
  | [] => true
  | ev :: tr' =>
      match ev_call ev with
      | CallRead _ f _ => existsb (String.eqb (h_path f)) open
      | _ => true
      end && reads_while_open (track open ev) tr'
  end.

(** *** Datasets to run single cells on *)

Module Cases.

Definition dataset (sample : Z) (crs : gmap string crs_value) : Demo.Decoded :=
  {| Demo.d_band := {| dtype := uint16; shape := [1%nat; 1%nat]; cells := [sample] |};
     Demo.d_bounds := {| left := 499980; bottom := 4590240;
                         right := 609780; top := 4700040 |};
     Demo.d_crs := crs;
     Demo.d_nodata := Some 1 |}.

(** The datasets of the first two files of [Demo.world]. *)
Definition d_B01 : Demo.Decoded :=
  dataset 1234 {[ "init"%string := CrsStr "epsg:32632" ]}.
Definition d_B09 : Demo.Decoded :=
  dataset 300 {[ "init"%string := CrsStr "epsg:32632" ]}.

(** A dataset whose authority is spelled in capitals. *)
Definition f_upper : Handle Demo.libs :=
  @Build_Handle Demo.libs "/tmp/B10.jp2"
    (dataset 7 {[ "init"%string := CrsStr "EPSG:4326" ]}) true.

(** A dataset whose CRS is given without an ['init'] entry. *)
Definition f_no_init : Handle Demo.libs :=
  @Build_Handle Demo.libs "/tmp/B10.jp2"
    (dataset 7 {[ "proj"%string := CrsStr "utm" ]}) true.

(** A dataset whose ['init'] entry names no code. *)
Definition f_short : Handle Demo.libs :=
  @Build_Handle Demo.libs "/tmp/B10.jp2"
    (dataset 7 {[ "init"%string := CrsStr "epsg:" ]}) true.

Definition start : State Demo.libs := boot Demo.libs (downloaded Demo.libs Demo.world).

End Cases.

(** ** Running the notebook symbolically *)

Ltac unfold_cells :=
  unfold ingest, cell_import, cell_context, cell_read, cell_projected_extent,
    cell_show_crs, cell_show_epsg, cell_tile, cell_rdd, cell_layer,
    epsg_of, crs_to_dict, name_f, read_band, jp2s.

Ltac red_m :=
  cbv beta iota zeta delta
    [mbind M_bind mret M_ret bind ret call sh_curl with_open builtin display
     log for_each fst snd trace fs shown raised closed app
     h_path h_dataset h_closed list_getitem lookup list_lookup].

Ltac split_result :=
  match goal with
  | |- context [match ?r with Ok _ => _ | Raise _ => _ end] =>
      let E := fresh "E" in destruct r eqn:E
  end.

(** [f.crs] may be [None]. *)
Ltac split_option :=
  match goal with
  | |- context [match ?o with Some _ => _ | None => _ end] =>
      is_var o; destruct o
  end.

(** One goal per place where [ingest] can stop. *)
Ltac exec :=
  unfold_cells; red_m; repeat (first [split_option | split_result]; red_m).


Lemma cell_download_returns L w :
  cell_download L w (boot L (disk w)) = (Ok tt, after_download L w).
Proof. reflexivity. Qed.

Lemma run_ingest L w : run L w = ingest L (after_download L w).
Proof. reflexivity. Qed.

Lemma prefix_sorted {A} (R : relation A) (l k : list A) :
  l `prefix_of` k → StronglySorted R k → StronglySorted R l.
Proof. intros [t ->] H. by apply StronglySorted_app_1_l in H. Qed.

Lemma pipeline_sorted : StronglySorted step_le pipeline.
Proof. unfold pipeline. repeat constructor; unfold step_le; cbn; lia. Qed.

Lemma Dataset_crs_to_dict_Ok L (ds : Dataset L) dict :
  Dataset_crs_to_dict L ds = Ok dict ↔
  ∃ crs, Dataset_crs L ds = Ok (Some crs) ∧ CRS_to_dict L crs = Ok dict.
Proof.
  unfold Dataset_crs_to_dict. split.
  - destruct (Dataset_crs L ds) as [[crs|]|e]; try discriminate. eauto.
  - intros (crs & -> & H). exact H.
Qed.

(** What a run that returns has computed, and what it has called.  The
    values that no variable keeps are [d1 d2 d3] (the three datasets), [b]
    (the bounds), [crs], [dict], [v], [s] and [code] (the way to the EPSG
    code) and [nd] (the nodata value). *)
Lemma run_Ok_inv L w ns st :
  run L w = (Ok ns, st) →
  ∃ d1 d2 d3 a1 a2 a3 b crs dict v s code nd,
    let f := {| h_path := "/tmp/B10.jp2"; h_dataset := d3; h_closed := true |} in
    geopyspark_conf L "local[*]" "sentinel-ingest-example" = Ok (v_conf L ns) ∧
    SparkContext_new L (v_conf L ns) = Ok (v_pysc L ns) ∧
    rasterio_open L "/tmp/B01.jp2" (downloaded L w) = Ok d1 ∧
    Dataset_read L d1 1 = Ok a1 ∧
    rasterio_open L "/tmp/B09.jp2" (downloaded L w) = Ok d2 ∧
    Dataset_read L d2 1 = Ok a2 ∧
    rasterio_open L "/tmp/B10.jp2" (downloaded L w) = Ok d3 ∧
    Dataset_read L d3 1 = Ok a3 ∧
    v_arrs L ns = [a1; a2; a3] ∧
    v_f L ns = Some f ∧
    np_array [a1; a2; a3] (dtype a1) = Ok (v_data L ns) ∧
    Dataset_bounds L d3 = Ok b ∧
    v_extent L ns = {| xmin := left b; ymin := bottom b;
                       xmax := right b; ymax := top b |} ∧
    Dataset_crs L d3 = Ok (Some crs) ∧
    CRS_to_dict L crs = Ok dict ∧
    getitem dict "init" = Ok v ∧ slice5 v = Ok s ∧ py_int s = Ok code ∧
    v_projected_extent L ns =
      {| extent := v_extent L ns; epsg := Some code; proj4 := None |} ∧
    Dataset_nodata L d3 = Ok nd ∧
    Tile_from_numpy_array L (v_data L ns) nd = Ok (v_tile L ns) ∧
    SparkContext_parallelize L (v_pysc L ns)
      [(v_projected_extent L ns, v_tile L ns)] = Ok (v_rdd L ns) ∧
    RasterLayer_from_numpy_rdd L SPATIAL (v_rdd L ns) = Ok (v_raster_layer L ns) ∧
    calls st =
      [ CallCurl L "/tmp/B01.jp2" url_B01;
        CallCurl L "/tmp/B09.jp2" url_B09;
        CallCurl L "/tmp/B10.jp2" url_B10;
        CallImport L Rasterio; CallImport L GeoPySpark;
        CallImport L Numpy; CallImport L PySpark;
        CallGeopysparkConf L "local[*]" "sentinel-ingest-example";
        CallSparkContext L (v_conf L ns);
        CallOpen L "/tmp/B01.jp2";
        CallEnter L (Build_Handle "/tmp/B01.jp2" d1 false);
        CallRead L (Build_Handle "/tmp/B01.jp2" d1 false) 1;
        CallExit L (Build_Handle "/tmp/B01.jp2" d1 false);
        CallOpen L "/tmp/B09.jp2";
        CallEnter L (Build_Handle "/tmp/B09.jp2" d2 false);
        CallRead L (Build_Handle "/tmp/B09.jp2" d2 false) 1;
        CallExit L (Build_Handle "/tmp/B09.jp2" d2 false);
        CallOpen L "/tmp/B10.jp2";
        CallEnter L (Build_Handle "/tmp/B10.jp2" d3 false);
        CallRead L (Build_Handle "/tmp/B10.jp2" d3 false) 1;
        CallExit L (Build_Handle "/tmp/B10.jp2" d3 false);
        CallNpArray L [a1; a2; a3] (dtype a1);
        CallBounds L f;
        CallExtent L (left b) (bottom b) (right b) (top b);
        CallCrs L f; CallToDict L crs;
        CallProjectedExtent L (v_extent L ns) code;
        CallCrs L f; CallToDict L crs;
        CallCrs L f; CallToDict L crs;
        CallNodata L f;
        CallTileFromNumpyArray L (v_data L ns) nd;
        CallParallelize L (v_pysc L ns) [(v_projected_extent L ns, v_tile L ns)];
        CallFromNumpyRdd L SPATIAL (v_rdd L ns) ].
Proof.
  rewrite run_ingest; unfold after_download. exec; intros H; try discriminate H.
  injection H as <- <-. cbn.
  repeat match goal with
         | H1 : ?x = Ok ?a, H2 : ?x = Ok ?b |- _ =>
             assert (a = b) by congruence; subst b; clear H2
         end.
  do 13 eexists. repeat (split; [eassumption || reflexivity |]). reflexivity.
Qed.

(** ** The order of the steps *)

(** C1, as stated, fails: with no host answering and an empty disk the
    first [rasterio.open] raises, and the run ends in the decoding step
    without stacking, wrapping or constructing anything. *)
Lemma a_failing_open_ends_the_run :
  ∃ e, (run Demo.libs Demo.world_down).1 = Raise e ∧
       steps (run Demo.libs Demo.world_down).2
         = [Download; Download; Download; Decode] ∧
       ¬ all_steps_execute (run Demo.libs Demo.world_down).2.
Proof.
  eexists. split; [vm_compute; reflexivity|].
  assert (E : steps (run Demo.libs Demo.world_down).2
              = [Download; Download; Download; Decode]) by (vm_compute; reflexivity).
  split; [exact E|]. unfold all_steps_execute. rewrite E.
  intros H. specialize (H Stack). rewrite !elem_of_cons in H.
  destruct H as [H|[H|[H|[H|H]]]]; try discriminate H.
  by apply elem_of_nil in H.
Qed.

(** C1, amended. In every run the steps of the calls made, in the
    order made, are an initial part of the pipeline's: downloads, then
    decoding, then the stack, then the wrapping, then the collection, then
    the layer.  So a step starts only when the steps before it have made
    all their calls, and no step is entered again once a later one has
    started.  The three downloads are always made; a run in which every
    call returns goes through the whole pipeline. *)
Theorem steps_in_fixed_order L w :
  steps (run L w).2 `prefix_of` pipeline ∧
  StronglySorted step_le (steps (run L w).2) ∧
  take 3 (steps (run L w).2) = [Download; Download; Download] ∧
  (∀ ns, (run L w).1 = Ok ns → steps (run L w).2 = pipeline).
Proof.
  assert (H : steps (run L w).2 `prefix_of` pipeline ∧
              take 3 (steps (run L w).2) = [Download; Download; Download] ∧
              (∀ ns, (run L w).1 = Ok ns → steps (run L w).2 = pipeline)).
  { rewrite run_ingest; unfold after_download. exec.
    all: split; [ eexists; reflexivity |].
    all: split; [ reflexivity | try discriminate; intros; reflexivity ]. }
  destruct H as (H1 & H2 & H3). split; [done|]. split; [|done].
  eapply prefix_sorted; [exact H1 | apply pipeline_sorted].
Qed.

(** The run on [Demo.world] returns and goes through the whole
    pipeline. *)
Lemma steps_in_fixed_order_witness :
  ∃ ns, (run Demo.libs Demo.world).1 = Ok ns ∧
        steps (run Demo.libs Demo.world).2 = pipeline.
Proof.
  destruct (run Demo.libs Demo.world).1 as [ns|e] eqn:E;
    [|vm_compute in E; discriminate E].
  exists ns. split; [reflexivity|].
  exact (proj2 (proj2 (proj2 (steps_in_fixed_order Demo.libs Demo.world))) ns E).
Defined.

(** ** Exceptions *)



(** ** The surface of the notebook *)

(** C3, as stated, fails: a run that returns has also called numpy
    ([np.array]) and pyspark ([SparkContext], [pysc.parallelize]). *)
Lemma surface_is_not_two_libraries :
  ∃ ns, (run Demo.libs Demo.world).1 = Ok ns ∧
        Numpy ∈ libraries_called (run Demo.libs Demo.world).2 ∧
        PySpark ∈ libraries_called (run Demo.libs Demo.world).2 ∧
        ¬ two_library_surface (run Demo.libs Demo.world).2.
Proof.
  eexists. split; [vm_compute; reflexivity|].
  assert (E : libraries_called (run Demo.libs Demo.world).2
              = [GeoPySpark; PySpark; Rasterio; Numpy]) by (vm_compute; reflexivity).
  assert (N : Numpy ∈ [GeoPySpark; PySpark; Rasterio; Numpy])
    by (rewrite !elem_of_cons; auto).
  unfold two_library_surface. rewrite E.
  split; [exact N|]. split; [rewrite !elem_of_cons; auto|].
  intros H. destruct (proj1 (H Numpy) N); discriminate.
Qed.

(** C3, amended. In every run the downloads are exactly the three
    URLs, in this order, all of scheme http and of host
    sentinel-s2-l1c.s3.amazonaws.com; the libraries called are, in order
    of first use, an initial part of GeoPySpark, pyspark, rasterio, numpy,
    and all four, which are the four the import cell names, in a run that
    returns. *)
Theorem surface_is_three_urls_four_libraries L w :
  let st := (run L w).2 in
  omap url_of (calls st) = [url_B01; url_B09; url_B10] ∧
  Forall (λ u, url_scheme u = Some "http"%string ∧
               url_host u = Some "sentinel-s2-l1c.s3.amazonaws.com"%string)
         (omap url_of (calls st)) ∧
  libraries_called st `prefix_of` [GeoPySpark; PySpark; Rasterio; Numpy] ∧
  (∀ ns, (run L w).1 = Ok ns →
     libraries_called st = [GeoPySpark; PySpark; Rasterio; Numpy] ∧
     omap imported (calls st) = [Rasterio; GeoPySpark; Numpy; PySpark] ∧
     ∀ l, l ∈ libraries_called st ↔ l ∈ omap imported (calls st)).
Proof.
  cbv zeta.
  assert (U : omap url_of (calls (run L w).2) = [url_B01; url_B09; url_B10]).
  { rewrite run_ingest; unfold after_download. exec; reflexivity. }
  split; [exact U|]. split.
  { rewrite U. repeat constructor. }
  rewrite run_ingest; unfold after_download. exec.
  all: unfold libraries_called, calls;
    cbn [fmap list_fmap omap list_omap library_of imported ev_call trace].
  all: split; [ eexists; vm_compute; reflexivity | try discriminate; intros ].
  match goal with
  | |- ?l = _ ∧ _ =>
      assert (Hl : l = [GeoPySpark; PySpark; Rasterio; Numpy])
        by (vm_compute; reflexivity)
  end.
  rewrite Hl. split; [reflexivity|]. split; [reflexivity|].
  intros []; rewrite !elem_of_cons; split; intros _; auto 10.
Qed.

(** ** The pair, the collection and the layer *)

(** C4. In a run that returns, [pysc.parallelize] is called once, on a
    list of exactly one pair: its key is the ProjectedExtent made of the
    bounds and the EPSG code read from the dataset [f], its value is the
    Tile made from the stacked array and the nodata value of [f]; the
    layer is built once, with layer type SPATIAL, from the RDD that call
    returned. *)
Theorem one_pair_one_rdd_one_layer L w ns :
  (run L w).1 = Ok ns →
  ∃ f b dict v s code nd a0,
    v_f L ns = Some f ∧
    Dataset_bounds L (h_dataset f) = Ok b ∧
    Dataset_crs_to_dict L (h_dataset f) = Ok dict ∧
    getitem dict "init" = Ok v ∧ slice5 v = Ok s ∧ py_int s = Ok code ∧
    Dataset_nodata L (h_dataset f) = Ok nd ∧
    v_arrs L ns !! 0%nat = Some a0 ∧
    np_array (v_arrs L ns) (dtype a0) = Ok (v_data L ns) ∧
    v_projected_extent L ns =
      {| extent := {| xmin := left b; ymin := bottom b;
                      xmax := right b; ymax := top b |};
         epsg := Some code; proj4 := None |} ∧
    Tile_from_numpy_array L (v_data L ns) nd = Ok (v_tile L ns) ∧
    omap parallelize_arg (calls (run L w).2)
      = [ [(v_projected_extent L ns, v_tile L ns)] ] ∧
    SparkContext_parallelize L (v_pysc L ns)
      [(v_projected_extent L ns, v_tile L ns)] = Ok (v_rdd L ns) ∧
    omap from_numpy_rdd_args (calls (run L w).2) = [ (SPATIAL, v_rdd L ns) ] ∧
    RasterLayer_from_numpy_rdd L SPATIAL (v_rdd L ns) = Ok (v_raster_layer L ns).
Proof.
  destruct (run L w) as [out st] eqn:R. cbn [fst snd]. intros ->.
  apply run_Ok_inv in R.
  destruct R as (d1 & d2 & d3 & a1 & a2 & a3 & b & crs & dict & v & s & code & nd & R).
  cbv zeta in R.
  destruct R as (_ & _ & _ & _ & _ & _ & _ & _ & Harrs & Hf & Hdata & Hb & Hext
                 & Hcrs & Hto & Hv & Hs & Hcode & Hpe & Hnd & Htile & Hrdd & Hlayer
                 & Hcalls).
  assert (Hdict : Dataset_crs_to_dict L d3 = Ok dict)
    by (apply Dataset_crs_to_dict_Ok; eauto).
  exists (Build_Handle "/tmp/B10.jp2" d3 true), b, dict, v, s, code, nd, a1.
  rewrite Hcalls, Harrs. cbn [h_dataset].
  repeat (split; [first [assumption | reflexivity | congruence] |]).
  assumption.
Qed.

(** The run on [Demo.world] returns: its one pair and its layer. *)
Lemma one_pair_one_rdd_one_layer_witness :
  ∃ ns, (run Demo.libs Demo.world).1 = Ok ns ∧
        omap parallelize_arg (calls (run Demo.libs Demo.world).2)
          = [ [(v_projected_extent _ ns, v_tile _ ns)] ] ∧
        omap from_numpy_rdd_args (calls (run Demo.libs Demo.world).2)
          = [ (SPATIAL, v_rdd _ ns) ].
Proof.
  destruct (run Demo.libs Demo.world).1 as [ns|e] eqn:E;
    [|vm_compute in E; discriminate E].
  exists ns. split; [reflexivity|].
  destruct (one_pair_one_rdd_one_layer Demo.libs Demo.world ns E)
    as (f & b & dict & v & s & code & nd & a0 & H).
  split; apply H.
Defined.

(** ** The extent and the EPSG code *)

Lemma is_digit_not_space c : is_digit c → is_space c = false.
Proof.
  unfold is_digit, is_space. intros H.
  destruct (Nat.leb_spec 9 (nat_of_ascii c)), (Nat.leb_spec (nat_of_ascii c) 13),
    (Nat.eqb_spec (nat_of_ascii c) 32);
    cbn; try reflexivity; lia.
Qed.

Lemma is_digit_digit_of c :
  is_digit c → digit_of c = Some (Z.of_nat (nat_of_ascii c) - 48).
Proof.
  unfold is_digit, digit_of. intros H.
  destruct (Nat.leb_spec 48 (nat_of_ascii c)), (Nat.leb_spec (nat_of_ascii c) 57);
    cbn; try reflexivity; lia.
Qed.

Lemma lstrip_digits s : all_digits s → lstrip s = s.
Proof.
  destruct s as [|c s]; [reflexivity|]. intros [Hc _]. cbn.
  by rewrite is_digit_not_space.
Qed.

Lemma rstrip_digits s : all_digits s → rstrip s = s.
Proof.
  induction s as [|c s IH]; [reflexivity|]. intros [Hc Hs]. cbn.
  rewrite IH by assumption. rewrite is_digit_not_space by assumption.
  by destruct s.
Qed.

(** The accumulator reading of a numeral agrees with its positional
    value. *)
Lemma digits_value_decimal s : ∀ acc,
  all_digits s →
  digits_value acc s = Some (acc * 10 ^ Z.of_nat (String.length s) + decimal s).
Proof.
  induction s as [|c s IH]; intros acc H.
  - cbn. f_equal. lia.
  - destruct H as [Hc Hs]. cbn [digits_value decimal String.length].
    rewrite is_digit_digit_of by assumption. rewrite IH by assumption.
    f_equal. rewrite Nat2Z.inj_succ, Z.pow_succ_r by lia. ring.
Qed.

Lemma digit_is_no_sign c (s : string) {A} (x y z : A) :
  is_digit c →
  match String c s with
  | String "+" _ => x
  | String "-" _ => y
  | _ => z
  end = z.
Proof.
  unfold is_digit. intros H.
  destruct c as [[] [] [] [] [] [] [] []]; try reflexivity;
    exfalso; vm_compute in H; lia.
Qed.

Lemma py_int_digits s :
  s ≠ EmptyString → all_digits s → py_int s = Ok (decimal s).
Proof.
  intros Hne H. unfold py_int.
  rewrite lstrip_digits, rstrip_digits by assumption.
  destruct s as [|c s]; [done|].
  assert (Hc : is_digit c) by apply H.
  rewrite (digit_is_no_sign c s _ _ _ Hc).
  unfold unsigned_literal. rewrite digits_value_decimal by assumption.
  f_equal.
Qed.

(** C5. Let the dataset [f] report the bounds [b] and a CRS dictionary
    whose entry ['init'] is the text epsg: followed by one or more decimal
    digits.  Then the extent cell returns, the four fields of the extent
    are the four components of [b] in order, and the EPSG code is the
    number denoted by ['init'] without its first five characters; so it is
    in every run that returns with this [f]. *)
Theorem projected_extent_from_metadata L (f : Handle L) b dict init digits :
  Dataset_bounds L (h_dataset f) = Ok b →
  Dataset_crs_to_dict L (h_dataset f) = Ok dict →
  dict !! "init"%string = Some (CrsStr init) →
  init = ("epsg:" ++ digits)%string →
  digits ≠ EmptyString →
  all_digits digits →
  let ext := {| xmin := left b; ymin := bottom b;
                xmax := right b; ymax := top b |} in
  let pe := {| extent := ext;
               epsg := Some (decimal (slice_from 5 init));
               proj4 := None |} in
  (∀ st, (cell_projected_extent L (Some f) st).1 = Ok (ext, pe)) ∧
  (∀ w ns, (run L w).1 = Ok ns → v_f L ns = Some f →
           v_extent L ns = ext ∧ v_projected_extent L ns = pe).
Proof.
  intros Hb Hd Hi -> Hne Hdig ext pe.
  destruct f as [path ds cl]. cbn [h_dataset] in Hb, Hd.
  pose proof Hd as Hd0.
  apply Dataset_crs_to_dict_Ok in Hd. destruct Hd as (crs & Hcrs & Hd).
  assert (Hint : py_int (slice_from 5 ("epsg:" ++ digits))
                 = Ok (decimal (slice_from 5 ("epsg:" ++ digits))))
    by (cbn [slice_from append]; by apply py_int_digits).
  split.
  - intros st. unfold cell_projected_extent, epsg_of, crs_to_dict, name_f. red_m.
    rewrite Hb. red_m. rewrite Hcrs. red_m. rewrite Hd. red_m.
    unfold getitem. rewrite Hi. cbn [slice5].
    rewrite Hint. reflexivity.
  - intros w ns R Hf. destruct (run L w) as [out st] eqn:E. cbn [fst] in R.
    subst out. apply run_Ok_inv in E.
    destruct E as (d1 & d2 & d3 & a1 & a2 & a3 & b' & crs' & dict' & v & s & code
                   & nd & E).
    cbv zeta in E.
    destruct E as (_ & _ & _ & _ & _ & _ & _ & _ & _ & Hf' & _ & Hb' & Hext
                   & Hcrs' & Hto' & Hv & Hs & Hcode & Hpe & _).
    rewrite Hf' in Hf. injection Hf as <- <- <-.
    rewrite Hb in Hb'. injection Hb' as <-.
    assert (Hdict' : Dataset_crs_to_dict L d3 = Ok dict')
      by (apply Dataset_crs_to_dict_Ok; eauto).
    rewrite Hd0 in Hdict'. injection Hdict' as <-.
    unfold getitem in Hv. rewrite Hi in Hv. injection Hv as <-.
    cbn [slice5] in Hs. injection Hs as <-.
    change (py_int (slice_from 5 ("epsg:" ++ digits)) = Ok code) in Hcode.
    rewrite Hint in Hcode. injection Hcode as <-.
    split; [exact Hext|]. rewrite Hpe, Hext. reflexivity.
Qed.

(** The dataset of UTM zone 32N: ['init'] is epsg:32632. *)
Lemma projected_extent_from_metadata_witness :
  decimal (slice_from 5 "epsg:32632") = 32632 ∧
  ∀ st, (cell_projected_extent Demo.libs (Some Demo.f_B10) st).1
        = Ok ({| xmin := 499980; ymin := 4590240; xmax := 609780; ymax := 4700040 |},
              {| extent := {| xmin := 499980; ymin := 4590240;
                              xmax := 609780; ymax := 4700040 |};
                 epsg := Some 32632; proj4 := None |}).
Proof.
  split; [reflexivity|].
  apply (projected_extent_from_metadata Demo.libs Demo.f_B10
           {| left := 499980; bottom := 4590240; right := 609780; top := 4700040 |}
           {[ "init"%string := CrsStr "epsg:32632" ]} "epsg:32632" "32632").
  - reflexivity.
  - reflexivity.
  - vm_compute. reflexivity.
  - reflexivity.
  - discriminate.
  - vm_compute. repeat split; repeat constructor.
Defined.

(** ** The stacked array *)

Lemma pow2_bits dt :
  2 ^ bits dt = 2 * 2 ^ (bits dt - 1) ∧ 0 < 2 ^ (bits dt - 1).
Proof. destruct dt; cbn [bits]; split; reflexivity. Qed.

(** Converting a sample to a type that holds it changes nothing. *)
Lemma astype_in_range dt v : in_range dt v → astype dt v = v.
Proof.
  unfold in_range, astype. destruct (pow2_bits dt) as [E P].
  rewrite E. generalize dependent (2 ^ (bits dt - 1)). intros h _ P.
  replace (2 * h / 2) with h
    by (rewrite Z.mul_comm, Z.div_mul by lia; reflexivity).
  destruct (signed dt); intros H; rewrite Z.mod_small; lia.
Qed.

Lemma np_array_Ok_inv arrs dt data :
  np_array arrs dt = Ok data →
  dtype3 data = dt ∧
  planes data = (λ b, astype dt <$> cells b) <$> arrs ∧
  ∀ a0, arrs !! 0%nat = Some a0 →
        shape3 data = length arrs :: shape a0 ∧
        Forall (λ a, shape a = shape a0) arrs.
Proof.
  unfold np_array. destruct arrs as [|a rest].
  - intros [= <-]. cbn. repeat split; intros; discriminate.
  - destruct (forallb (same_shape a) rest) eqn:E; [|discriminate].
    intros [= <-]. cbn [dtype3 planes shape3]. repeat split.
    + by injection H as ->.
    + injection H as <-. constructor; [reflexivity|].
      apply Forall_forall. intros x Hx.
      rewrite forallb_forall in E. apply list_elem_of_In in Hx.
      specialize (E x Hx). unfold same_shape in E.
      apply bool_decide_eq_true in E. congruence.
Qed.

(** What the read cell has done when it returns. *)
Lemma cell_read_Ok_inv L st arrs f data :
  (cell_read L st).1 = Ok (arrs, f, data) →
  ∃ d1 d2 d3 a1 a2 a3,
    rasterio_open L "/tmp/B01.jp2" (fs st) = Ok d1 ∧
    Dataset_read L d1 1 = Ok a1 ∧
    rasterio_open L "/tmp/B09.jp2" (fs st) = Ok d2 ∧
    Dataset_read L d2 1 = Ok a2 ∧
    rasterio_open L "/tmp/B10.jp2" (fs st) = Ok d3 ∧
    Dataset_read L d3 1 = Ok a3 ∧
    arrs = [a1; a2; a3] ∧
    f = Some (Build_Handle "/tmp/B10.jp2" d3 true) ∧
    np_array [a1; a2; a3] (dtype a1) = Ok data.
Proof.
  destruct st as [fs0 tr sh]. unfold cell_read, read_band, jp2s. red_m.
  repeat (split_result; red_m); intros H; try discriminate H.
  injection H as <- <- <-.
  do 6 eexists. repeat (split; [eassumption || reflexivity |]). assumption.
Qed.

(** In a run that returns, [arrs], [f] and [data] are what the read
    cell returns on the downloaded files. *)
Lemma run_Ok_cell_read L w ns :
  (run L w).1 = Ok ns →
  (cell_read L (boot L (downloaded L w))).1
    = Ok (v_arrs L ns, v_f L ns, v_data L ns).
Proof.
  destruct (run L w) as [out st] eqn:R. cbn [fst]. intros ->.
  apply run_Ok_inv in R.
  destruct R as (d1 & d2 & d3 & a1 & a2 & a3 & b & crs & dict & v & s & code & nd & R).
  cbv zeta in R.
  destruct R as (_ & _ & O1 & R1 & O2 & R2 & O3 & R3 & -> & -> & N & _).
  unfold cell_read, read_band, jp2s, boot. red_m.
  rewrite O1; red_m. rewrite R1; red_m.
  rewrite O2; red_m. rewrite R2; red_m.
  rewrite O3; red_m. rewrite R3; red_m.
  rewrite N. reflexivity.
Qed.

Lemma astype_in_range_list dt (l : list Z) :
  Forall (in_range dt) l → astype dt <$> l = l.
Proof.
  induction 1 as [|v l Hv _ IH]; [reflexivity|].
  cbn. by rewrite astype_in_range, IH.
Qed.

(** C6, as stated, fails: when the first file decodes to 8-bit samples
    and the second to the 16-bit sample 300, the band at index 1 of the
    combined array holds 44, not the decoded band. *)
Lemma stack_changes_a_wider_band :
  ∃ ns a p,
    (run Demo.libs Demo.world_mixed).1 = Ok ns ∧
    v_arrs _ ns !! 1%nat = Some a ∧
    plane (v_data _ ns) 1 = Some p ∧
    a = {| dtype := uint16; shape := [1%nat; 1%nat]; cells := [300] |} ∧
    p = {| dtype := uint8; shape := [1%nat; 1%nat]; cells := [44] |} ∧
    p ≠ a.
Proof.
  do 3 eexists.
  split; [vm_compute; reflexivity|].
  split; [vm_compute; reflexivity|].
  split; [vm_compute; reflexivity|].
  split; [reflexivity|]. split; [reflexivity|]. discriminate.
Qed.

(** C6, amended. When the read cell returns, the three files have been
    opened and their band 1 read in the order of the list (B01, B09, B10);
    the combined array has three planes, its shape is 3 followed by the
    shape of the bands, and the plane at index [i] is the band read from
    the [i]-th file with every sample converted to the dtype of the first
    band: it is that band itself when the band has the first band's dtype
    (and holds samples of that type). *)
Theorem stack_keeps_file_order L st arrs f data :
  (cell_read L st).1 = Ok (arrs, f, data) →
  ∃ d1 d2 d3 a1 a2 a3,
    rasterio_open L "/tmp/B01.jp2" (fs st) = Ok d1 ∧
    Dataset_read L d1 1 = Ok a1 ∧
    rasterio_open L "/tmp/B09.jp2" (fs st) = Ok d2 ∧
    Dataset_read L d2 1 = Ok a2 ∧
    rasterio_open L "/tmp/B10.jp2" (fs st) = Ok d3 ∧
    Dataset_read L d3 1 = Ok a3 ∧
    arrs = [a1; a2; a3] ∧
    length (planes data) = 3%nat ∧
    shape3 data = 3%nat :: shape a1 ∧
    ∀ i a, arrs !! i = Some a →
      plane data i = Some {| dtype := dtype a1; shape := shape a1;
                             cells := astype (dtype a1) <$> cells a |} ∧
      (dtype a = dtype a1 → Forall (in_range (dtype a)) (cells a) →
       plane data i = Some a).
Proof.
  intros H. apply cell_read_Ok_inv in H.
  destruct H as (d1 & d2 & d3 & a1 & a2 & a3 & O1 & R1 & O2 & R2 & O3 & R3 & -> & _ & N).
  apply np_array_Ok_inv in N. destruct N as (Hdt & Hpl & Hsh).
  destruct (Hsh a1 eq_refl) as [Hs3 Hall].
  exists d1, d2, d3, a1, a2, a3.
  repeat (split; [assumption || reflexivity |]).
  split; [by rewrite Hpl|]. split; [exact Hs3|].
  intros i a Hi.
  assert (Ha : shape a = shape a1).
  { rewrite Forall_forall in Hall. apply Hall. by eapply list_elem_of_lookup_2. }
  assert (Hp : plane data i = Some {| dtype := dtype a1; shape := shape a1;
                                      cells := astype (dtype a1) <$> cells a |}).
  { unfold plane. rewrite Hpl, Hdt, Hs3, list_lookup_fmap, Hi. reflexivity. }
  split; [exact Hp|]. intros Hd Hr. rewrite Hp. f_equal.
  destruct a as [dt sh cs]. cbn in *. subst.
  by rewrite astype_in_range_list.
Qed.

(** Three 16-bit bands: the plane at index 1 is the band of B09. *)
Lemma stack_keeps_file_order_witness :
  (cell_read Demo.libs (boot Demo.libs (downloaded Demo.libs Demo.world))).1
    = Ok (Demo.arrs_16, Some Demo.f_B10, Demo.data_16) ∧
  length (planes Demo.data_16) = 3%nat ∧
  shape3 Demo.data_16 = [3%nat; 1%nat; 1%nat] ∧
  plane Demo.data_16 1
    = Some {| dtype := uint16; shape := [1%nat; 1%nat]; cells := [300] |}.
Proof.
  assert (E : (cell_read Demo.libs (boot Demo.libs (downloaded Demo.libs Demo.world))).1
              = Ok (Demo.arrs_16, Some Demo.f_B10, Demo.data_16))
    by (vm_compute; reflexivity).
  split; [exact E|].
  destruct (stack_keeps_file_order _ _ _ _ _ E)
    as (d1 & d2 & d3 & a1 & a2 & a3 & _ & _ & _ & _ & _ & _ & Harrs & Hlen & _ & Hplane).
  split; [exact Hlen|]. split; [reflexivity|].
  injection Harrs as <- <- <-.
  destruct (Hplane 1%nat _ eq_refl) as [_ Hsame].
  apply Hsame; [reflexivity|].
  constructor; [|constructor]. unfold in_range. cbn. lia.
Defined.

(** C10. When the read cell returns, the combined array has the dtype
    of the first band read, and every plane is the band read from the file
    of that index with each sample converted to that dtype, whatever the
    band's own dtype. *)
Theorem stack_casts_to_first_dtype L st arrs f data :
  (cell_read L st).1 = Ok (arrs, f, data) →
  ∃ a0, arrs !! 0%nat = Some a0 ∧
        dtype3 data = dtype a0 ∧
        ∀ i a, arrs !! i = Some a →
               planes data !! i = Some (astype (dtype a0) <$> cells a).
Proof.
  intros H. apply cell_read_Ok_inv in H.
  destruct H as (d1 & d2 & d3 & a1 & a2 & a3 & _ & _ & _ & _ & _ & _ & -> & _ & N).
  apply np_array_Ok_inv in N. destruct N as (Hdt & Hpl & _).
  exists a1. split; [reflexivity|]. split; [exact Hdt|].
  intros i a Hi. by rewrite Hpl, list_lookup_fmap, Hi.
Qed.

(** An 8-bit band followed by two 16-bit bands: all stored as 8-bit. *)
Lemma stack_casts_to_first_dtype_witness :
  (cell_read Demo.libs (boot Demo.libs (downloaded Demo.libs Demo.world_mixed))).1
    = Ok (Demo.arrs_mixed, Some Demo.f_B10, Demo.data_mixed) ∧
  dtype <$> Demo.arrs_mixed = [uint8; uint16; uint16] ∧
  ∃ a0, Demo.arrs_mixed !! 0%nat = Some a0 ∧
        dtype3 Demo.data_mixed = dtype a0 ∧
        ∀ i a, Demo.arrs_mixed !! i = Some a →
               planes Demo.data_mixed !! i = Some (astype (dtype a0) <$> cells a).
Proof.
  assert (E : (cell_read Demo.libs
                 (boot Demo.libs (downloaded Demo.libs Demo.world_mixed))).1
              = Ok (Demo.arrs_mixed, Some Demo.f_B10, Demo.data_mixed))
    by (vm_compute; reflexivity).
  split; [exact E|]. split; [reflexivity|].
  exact (stack_casts_to_first_dtype _ _ _ _ _ E).
Defined.

(** ** The calls of each step *)

(** C7, as stated, fails: the download step alone is three calls, one
    shell command per file. *)
Lemma steps_are_not_single_calls :
  ∃ ns, (run Demo.libs Demo.world).1 = Ok ns ∧
        calls_in Download (run Demo.libs Demo.world).2 = 3%nat ∧
        ¬ single_call_steps (run Demo.libs Demo.world).2.
Proof.
  assert (D : calls_in Download (run Demo.libs Demo.world).2 = 3%nat)
    by (vm_compute; reflexivity).
  eexists. split; [vm_compute; reflexivity|].
  split; [exact D|].
  intros H. specialize (H Download). rewrite D in H. discriminate H.
Qed.

(** C7, amended. The calls follow one sequence whatever the libraries
    return: every run makes an initial part of it, and a run that returns
    makes all of it.  In such a run the stack, the collection and the layer
    are one call each, while the download (three shell commands), the
    decoding and the wrapping are several calls each. *)
Theorem calls_follow_fixed_schedule L w :
  let st := (run L w).2 in
  call_name <$> calls st `prefix_of` schedule ∧
  (∀ ns, (run L w).1 = Ok ns →
     call_name <$> calls st = schedule ∧
     calls_in Stack st = 1%nat ∧
     calls_in ConstructRDD st = 1%nat ∧
     calls_in ConstructLayer st = 1%nat ∧
     calls_in Download st = 3%nat ∧
     (1 < calls_in Decode st)%nat ∧
     (1 < calls_in Wrap st)%nat).
Proof.
  cbv zeta. rewrite run_ingest; unfold after_download. exec.
  all: split; [ eexists; reflexivity | try discriminate; intros ].
  repeat split; try reflexivity; vm_compute; lia.
Qed.

(** The run on [Demo.world] returns and makes every call of the
    schedule. *)
Lemma calls_follow_fixed_schedule_witness :
  ∃ ns, (run Demo.libs Demo.world).1 = Ok ns ∧
        call_name <$> calls (run Demo.libs Demo.world).2 = schedule.
Proof.
  destruct (run Demo.libs Demo.world).1 as [ns|e] eqn:E;
    [|vm_compute in E; discriminate E].
  exists ns. split; [reflexivity|].
  exact (proj1 (proj2 (calls_follow_fixed_schedule Demo.libs Demo.world) ns E)).
Defined.

(** ** Determinism *)




(** ** Where the metadata comes from *)

(** C9. In every run each metadata read ([f.bounds], [f.crs],
    [f.nodata]) goes to a handle for /tmp/B10.jp2 that is already closed;
    the datasets of the first two files are read for band 1 and nothing
    else.  In a run that returns, [f] is the closed dataset opened on
    /tmp/B10.jp2, all five metadata reads go to it, and the extent, the
    EPSG code and the nodata value of the pair handed to the collection
    are what this one dataset reports. *)
Theorem metadata_comes_from_last_file L w :
  let st := (run L w).2 in
  Forall (λ c, ∀ h, metadata_read c = Some h →
                    h_path h = "/tmp/B10.jp2"%string ∧ h_closed h = true)
         (calls st) ∧
  (∀ ns, (run L w).1 = Ok ns →
     ∃ d3 b dict v s code nd,
       let f := Build_Handle "/tmp/B10.jp2" d3 true in
       rasterio_open L "/tmp/B10.jp2" (downloaded L w) = Ok d3 ∧
       v_f L ns = Some f ∧
       omap metadata_read (calls st) = [f; f; f; f; f] ∧
       Dataset_bounds L d3 = Ok b ∧
       Dataset_crs_to_dict L d3 = Ok dict ∧
       getitem dict "init" = Ok v ∧ slice5 v = Ok s ∧ py_int s = Ok code ∧
       Dataset_nodata L d3 = Ok nd ∧
       v_projected_extent L ns =
         {| extent := {| xmin := left b; ymin := bottom b;
                         xmax := right b; ymax := top b |};
            epsg := Some code; proj4 := None |} ∧
       Tile_from_numpy_array L (v_data L ns) nd = Ok (v_tile L ns) ∧
       SparkContext_parallelize L (v_pysc L ns)
         [(v_projected_extent L ns, v_tile L ns)] = Ok (v_rdd L ns) ∧
       RasterLayer_from_numpy_rdd L SPATIAL (v_rdd L ns) = Ok (v_raster_layer L ns)).
Proof.
  cbv zeta. split.
  - rewrite run_ingest; unfold after_download. exec.
    all: unfold calls; cbn [fmap list_fmap ev_call trace].
    all: repeat (apply Forall_cons_2;
                 [cbn; intros h; intros [= <-]; split; reflexivity|]).
    all: apply Forall_nil_2.
  - intros ns R. destruct (run L w) as [out st] eqn:E. cbn [fst snd] in *.
    subst out. apply run_Ok_inv in E.
    destruct E as (d1 & d2 & d3 & a1 & a2 & a3 & b & crs & dict & v & s & code
                   & nd & E).
    cbv zeta in E.
    destruct E as (_ & _ & _ & _ & _ & _ & O3 & _ & _ & Hf & _ & Hb & Hext
                   & Hcrs & Hto & Hv & Hs & Hcode & Hpe & Hnd & Htile & Hrdd
                   & Hlayer & Hcalls).
    assert (Hdict : Dataset_crs_to_dict L d3 = Ok dict)
      by (apply Dataset_crs_to_dict_Ok; eauto).
    exists d3, b, dict, v, s, code, nd. rewrite Hcalls.
    repeat (split; [first [assumption | reflexivity | congruence] |]).
    assumption.
Qed.

(** On [Demo.world] the run returns, [f] is the dataset of the third
    file, and the five metadata reads go to it. *)
Lemma metadata_comes_from_last_file_witness :
  ∃ ns, (run Demo.libs Demo.world).1 = Ok ns ∧
        v_f _ ns = Some Demo.f_B10 ∧
        omap metadata_read (calls (run Demo.libs Demo.world).2)
          = [Demo.f_B10; Demo.f_B10; Demo.f_B10; Demo.f_B10; Demo.f_B10].
Proof.
  destruct (run Demo.libs Demo.world).1 as [ns|e] eqn:E;
    [|vm_compute in E; discriminate E].
  exists ns. split; [reflexivity|].
  destruct (proj2 (metadata_comes_from_last_file Demo.libs Demo.world) ns E)
    as (d3 & b & dict & v & s & code & nd & O3 & Hf & Hm & _).
  assert (D : d3 = h_dataset Demo.f_B10).
  { vm_compute in O3. injection O3 as <-. reflexivity. }
  subst d3. split; [exact Hf | exact Hm].
Defined.

(** ** Further properties of the cells *)

(** *** The download cell *)

Lemma eqb_other (p q : string) : p ≠ q → String.eqb p q = false.
Proof. intros H. by apply String.eqb_neq. Qed.

(** X1. The download cell touches three files and no other: a path
    outside the list keeps what the disk held; each of the three holds the
    bytes its own command wrote, or, when that command wrote nothing, what
    the disk held before.  No command overwrites the file of another. *)
Theorem download_writes_only_its_own_files L w :
  (∀ p, p ∉ jp2s → downloaded L w p = disk w p) ∧
  downloaded L w "/tmp/B01.jp2"
    = match body (net w url_B01) with
      | Some b => Some b
      | None => disk w "/tmp/B01.jp2"
      end ∧
  downloaded L w "/tmp/B09.jp2"
    = match body (net w url_B09) with
      | Some b => Some b
      | None => disk w "/tmp/B09.jp2"
      end ∧
  downloaded L w "/tmp/B10.jp2"
    = match body (net w url_B10) with
      | Some b => Some b
      | None => disk w "/tmp/B10.jp2"
      end.
Proof.
  unfold downloaded, cell_download, boot. red_m.
  split.
  - intros p Hp. unfold jp2s in Hp. rewrite !not_elem_of_cons in Hp.
    destruct Hp as (H1 & H2 & H3 & _).
    destruct (body (net w url_B01)), (body (net w url_B09)), (body (net w url_B10));
      unfold write_file; rewrite ?(eqb_other _ _ H1), ?(eqb_other _ _ H2),
        ?(eqb_other _ _ H3); reflexivity.
  - repeat split;
      destruct (body (net w url_B01)), (body (net w url_B09)), (body (net w url_B10));
      reflexivity.
Qed.

(** *** The loop over the files *)

(** X2. In every run, however it ends, no dataset is left open, never
    more than one is open at a time, and every [f.read] goes to a dataset
    that is open at that moment: a dataset whose read raises is closed like
    the others. *)
Theorem datasets_are_closed L w :
  let tr := trace (run L w).2 in
  open_after tr = [] ∧
  (peak_open [] tr <= 1)%nat ∧
  reads_while_open [] tr = true.
Proof.
  cbv zeta. rewrite run_ingest; unfold after_download. exec.
  all: split; [reflexivity|]; split; [cbn; lia | reflexivity].
Qed.

(** X3. In every run the files are opened in the order of the list,
    each at most once and none other, and the only band ever read is
    band 1. *)
Theorem files_opened_in_order_band_one_read L w :
  let st := (run L w).2 in
  omap opened (calls st) `prefix_of` jp2s ∧
  Forall (λ i, i = 1) (omap band_read (calls st)).
Proof.
  cbv zeta. rewrite run_ingest; unfold after_download. exec.
  all: split; [eexists; reflexivity|].
  all: unfold calls;
    cbn [fmap list_fmap omap list_omap band_read ev_call trace].
  all: repeat (apply Forall_cons_2; [reflexivity|]); apply Forall_nil_2.
Qed.

(** *** The EPSG code *)

(** As [red_m], from a state whose trace is not known: [++] is kept. *)
Ltac red_cell :=
  cbv beta iota zeta delta
    [mbind M_bind mret M_ret bind ret call builtin display log
     fst snd trace fs shown raised h_dataset].

Lemma slice_from_app (a b : string) :
  slice_from (String.length a) (a ++ b) = b.
Proof. induction a as [|c a IH]; [by destruct b|exact IH]. Qed.

Lemma slice_from_short n (s : string) :
  (String.length s <= n)%nat → slice_from n s = EmptyString.
Proof.
  revert n. induction s as [|c s IH]; intros [|n] H; cbn in *;
    try reflexivity; try lia.
  apply IH. lia.
Qed.

(** X4. The first five characters of ['init'] are dropped unread: when
    the entry is any five characters followed by [rest], the EPSG
    expression is [int(rest)], be the five characters epsg: or not. *)
Theorem epsg_ignores_first_five_characters L (f : Handle L) dict five rest st :
  Dataset_crs_to_dict L (h_dataset f) = Ok dict →
  dict !! "init"%string = Some (CrsStr (five ++ rest)) →
  String.length five = 5%nat →
  (epsg_of L f st).1 = py_int rest.
Proof.
  intros Hd Hi Hlen. destruct f as [path ds cl]. cbn [h_dataset] in Hd.
  apply Dataset_crs_to_dict_Ok in Hd. destruct Hd as (crs & Hcrs & Hd).
  unfold epsg_of, crs_to_dict. red_m. rewrite Hcrs. red_m. rewrite Hd. red_m.
  unfold getitem. rewrite Hi. cbn [slice5].
  rewrite <- Hlen, slice_from_app. by destruct (py_int rest).
Qed.

(** The entry EPSG:4326 is read as 4326. *)
Lemma epsg_ignores_first_five_characters_witness :
  (epsg_of Demo.libs Cases.f_upper Cases.start).1 = py_int "4326" ∧
  py_int "4326" = Ok 4326.
Proof.
  split; [|reflexivity].
  apply (epsg_ignores_first_five_characters Demo.libs Cases.f_upper
           {[ "init"%string := CrsStr "EPSG:4326" ]} "EPSG:" "4326").
  - reflexivity.
  - vm_compute. reflexivity.
  - reflexivity.
Defined.

(** X5. When the CRS dictionary of [f] has no ['init'] entry, the
    extent cell raises [KeyError('init')] after four calls (the bounds,
    the extent, the CRS, its dictionary): no projected extent is made and
    nothing is shown. *)
Theorem missing_init_raises_KeyError L (f : Handle L) b crs dict st :
  Dataset_bounds L (h_dataset f) = Ok b →
  Dataset_crs L (h_dataset f) = Ok (Some crs) →
  CRS_to_dict L crs = Ok dict →
  dict !! "init"%string = None →
  (cell_projected_extent L (Some f) st).1 = Raise (KeyError "init") ∧
  calls (cell_projected_extent L (Some f) st).2
    = calls st ++ [ CallBounds L f;
                    CallExtent L (left b) (bottom b) (right b) (top b);
                    CallCrs L f;
                    CallToDict L crs ] ∧
  shown (cell_projected_extent L (Some f) st).2 = shown st.
Proof.
  intros Hb Hcrs Hd Hi. destruct f as [path ds cl]. cbn [h_dataset] in Hb, Hcrs.
  destruct st as [fs0 tr sh].
  unfold cell_projected_extent, epsg_of, crs_to_dict, name_f, calls. red_cell.
  rewrite Hb. red_cell. rewrite Hcrs. red_cell. rewrite Hd. red_cell.
  unfold getitem. rewrite Hi.
  split; [reflexivity|]. split; [|reflexivity].
  cbn [fst snd trace]. rewrite !fmap_app, <- !app_assoc. reflexivity.
Qed.

(** A dataset whose CRS is given as a projection name only. *)
Lemma missing_init_raises_KeyError_witness :
  (cell_projected_extent Demo.libs (Some Cases.f_no_init) Cases.start).1
    = Raise (KeyError "init").
Proof.
  apply (missing_init_raises_KeyError Demo.libs Cases.f_no_init
           {| left := 499980; bottom := 4590240; right := 609780; top := 4700040 |}
           {[ "proj"%string := CrsStr "utm" ]}
           {[ "proj"%string := CrsStr "utm" ]} Cases.start).
  - reflexivity.
  - reflexivity.
  - reflexivity.
  - vm_compute. reflexivity.
Defined.

(** X6. When the ['init'] entry has five characters or fewer, nothing
    is left after the slice and the extent cell raises [ValueError], the
    exception of [int] on the empty string. *)
Theorem short_init_raises_ValueError L (f : Handle L) b dict init st :
  Dataset_bounds L (h_dataset f) = Ok b →
  Dataset_crs_to_dict L (h_dataset f) = Ok dict →
  dict !! "init"%string = Some (CrsStr init) →
  (String.length init <= 5)%nat →
  (cell_projected_extent L (Some f) st).1 = Raise ValueError.
Proof.
  intros Hb Hd Hi Hlen. destruct f as [path ds cl]. cbn [h_dataset] in Hb, Hd.
  apply Dataset_crs_to_dict_Ok in Hd. destruct Hd as (crs & Hcrs & Hd).
  unfold cell_projected_extent, epsg_of, crs_to_dict, name_f. red_m.
  rewrite Hb. red_m. rewrite Hcrs. red_m. rewrite Hd. red_m.
  unfold getitem. rewrite Hi.
  cbn [slice5]. rewrite slice_from_short by assumption. reflexivity.
Qed.

(** The entry epsg: with no code after it. *)
Lemma short_init_raises_ValueError_witness :
  (cell_projected_extent Demo.libs (Some Cases.f_short) Cases.start).1
    = Raise ValueError.
Proof.
  apply (short_init_raises_ValueError Demo.libs Cases.f_short
           {| left := 499980; bottom := 4590240; right := 609780; top := 4700040 |}
           {[ "init"%string := CrsStr "epsg:" ]} "epsg:" Cases.start).
  - reflexivity.
  - reflexivity.
  - vm_compute. reflexivity.
  - cbn. lia.
Defined.

(** *** The stacked array *)

(** Conversion lands in the range of the target type. *)
Lemma astype_range dt v : in_range dt (astype dt v).
Proof.
  unfold in_range, astype. destruct (pow2_bits dt) as [E P].
  rewrite E. generalize dependent (2 ^ (bits dt - 1)). intros h _ P.
  replace (2 * h / 2) with h
    by (rewrite Z.mul_comm, Z.div_mul by lia; reflexivity).
  destruct (signed dt).
  - pose proof (Z.mod_pos_bound (v + h) (2 * h)). lia.
  - pose proof (Z.mod_pos_bound v (2 * h)). lia.
Qed.

(** X7. When the read cell returns, every sample of the combined array
    lies in the range of the array's dtype, whatever the samples and the
    dtypes of the bands read. *)
Theorem stacked_samples_in_range L st arrs f data :
  (cell_read L st).1 = Ok (arrs, f, data) →
  Forall (Forall (in_range (dtype3 data))) (planes data).
Proof.
  intros H. apply cell_read_Ok_inv in H.
  destruct H as (d1 & d2 & d3 & a1 & a2 & a3 & _ & _ & _ & _ & _ & _ & _ & _ & N).
  apply np_array_Ok_inv in N. destruct N as (Hdt & Hpl & _).
  rewrite Hpl, Hdt. apply Forall_fmap, Forall_true. intros a. cbn.
  apply Forall_fmap, Forall_true. intros v. apply astype_range.
Qed.

(** The sample 300 of a 16-bit band, stored after an 8-bit band. *)
Lemma stacked_samples_in_range_witness :
  (cell_read Demo.libs (boot Demo.libs (downloaded Demo.libs Demo.world_mixed))).1
    = Ok (Demo.arrs_mixed, Some Demo.f_B10, Demo.data_mixed) ∧
  Forall (Forall (in_range uint8)) [[5]; [44]; [7]].
Proof.
  assert (E : (cell_read Demo.libs
                 (boot Demo.libs (downloaded Demo.libs Demo.world_mixed))).1
              = Ok (Demo.arrs_mixed, Some Demo.f_B10, Demo.data_mixed))
    by (vm_compute; reflexivity).
  split; [exact E|].
  exact (stacked_samples_in_range _ _ _ _ _ E).
Defined.

(** X8. When the three files open and their band 1 is read, the read
    cell returns exactly when the three bands have one shape: then [arrs]
    holds the bands in file order, [f] is the closed dataset of the last
    file, and [data] has the first band's dtype and the bands' shape behind
    a leading 3; otherwise it raises [ValueError], as numpy does. *)
Theorem read_cell_result L st d1 d2 d3 a1 a2 a3 :
  rasterio_open L "/tmp/B01.jp2" (fs st) = Ok d1 →
  Dataset_read L d1 1 = Ok a1 →
  rasterio_open L "/tmp/B09.jp2" (fs st) = Ok d2 →
  Dataset_read L d2 1 = Ok a2 →
  rasterio_open L "/tmp/B10.jp2" (fs st) = Ok d3 →
  Dataset_read L d3 1 = Ok a3 →
  (cell_read L st).1 =
    if bool_decide (shape a1 = shape a2 ∧ shape a1 = shape a3)
    then Ok ([a1; a2; a3],
             Some (Build_Handle "/tmp/B10.jp2" d3 true),
             {| dtype3 := dtype a1;
                shape3 := 3%nat :: shape a1;
                planes := [ astype (dtype a1) <$> cells a1;
                            astype (dtype a1) <$> cells a2;
                            astype (dtype a1) <$> cells a3 ] |})
    else Raise ValueError.
Proof.
  intros O1 R1 O2 R2 O3 R3. destruct st as [fs0 tr sh]. cbn [fs] in *.
  unfold cell_read, read_band, jp2s. red_m.
  rewrite O1; red_m. rewrite R1; red_m.
  rewrite O2; red_m. rewrite R2; red_m.
  rewrite O3; red_m. rewrite R3; red_m.
  unfold np_array. cbn [forallb]. unfold same_shape.
  repeat case_bool_decide; cbn [andb]; try reflexivity; exfalso; tauto.
Qed.

(** The three 16-bit bands of [Demo.world], all of shape 1 x 1. *)
Lemma read_cell_result_witness :
  (cell_read Demo.libs Cases.start).1
    = Ok (Demo.arrs_16, Some Demo.f_B10, Demo.data_16).
Proof.
  rewrite (read_cell_result Demo.libs Cases.start
             Cases.d_B01 Cases.d_B09 (h_dataset Demo.f_B10)
             {| dtype := uint16; shape := [1%nat; 1%nat]; cells := [1234] |}
             {| dtype := uint16; shape := [1%nat; 1%nat]; cells := [300] |}
             {| dtype := uint16; shape := [1%nat; 1%nat]; cells := [7] |});
    try (vm_compute; reflexivity).
Defined.

(** *** What the cells show *)

(** X9. A run that returns shows ten outputs, in this order: the text
    of the three downloads, the stacked array, the projected extent, the
    CRS dictionary of [f], the EPSG code, the tile, the RDD and the layer;
    the code shown is the one the projected extent carries, parsed from
    the dictionary shown. *)
Theorem outputs_of_a_returning_run L w ns :
  (run L w).1 = Ok ns →
  ∃ f dict v s code,
    v_f L ns = Some f ∧
    Dataset_crs_to_dict L (h_dataset f) = Ok dict ∧
    getitem dict "init" = Ok v ∧ slice5 v = Ok s ∧ py_int s = Ok code ∧
    epsg (v_projected_extent L ns) = Some code ∧
    shown (run L w).2 =
      [ ShellText L (message (net w url_B01));
        ShellText L (message (net w url_B09));
        ShellText L (message (net w url_B10));
        ShowArray L (v_data L ns);
        ShowProjectedExtent L (v_projected_extent L ns);
        ShowDict L dict;
        ShowInt L code;
        ShowTile L (v_tile L ns);
        ShowRDD L (v_rdd L ns);
        ShowLayer L (v_raster_layer L ns) ].
Proof.
  rewrite run_ingest; unfold after_download. exec; intros H; try discriminate H.
  injection H as <-. cbn.
  repeat match goal with
         | H1 : ?x = Ok ?a, H2 : ?x = Ok ?b |- _ =>
             assert (a = b) by congruence; subst b; clear H2
         end.
  do 5 eexists.
  repeat (split; [first [ eassumption | reflexivity
                        | apply Dataset_crs_to_dict_Ok; cbn [h_dataset]; eauto ] |]).
  reflexivity.
Qed.

(** The outputs of the run on [Demo.world]: the code shown is 32632. *)
Lemma outputs_of_a_returning_run_witness :
  ∃ ns, (run Demo.libs Demo.world).1 = Ok ns ∧
        epsg (v_projected_extent _ ns) = Some 32632 ∧
        shown (run Demo.libs Demo.world).2 !! 6%nat = Some (ShowInt Demo.libs 32632).
Proof.
  eexists. split; [vm_compute; reflexivity|].
  match goal with
  | |- epsg (v_projected_extent _ ?n) = _ ∧ _ =>
      assert (E : (run Demo.libs Demo.world).1 = Ok n) by (vm_compute; reflexivity)
  end.
  destruct (outputs_of_a_returning_run Demo.libs Demo.world _ E)
    as (f & dict & v & s & code & Hf & Hd & Hv & Hs & Hc & He & Hsh).
  split; [reflexivity|].
  rewrite Hsh. cbn in He. injection He as <-. reflexivity.
Defined.
